(** * NetBox static-asset bundler (netbox/project-static/bundle.js)

    A shallow embedding of the build orchestration script and the
    properties its specification states about it.

    The script only configures and sequences external tools (esbuild,
    fast-glob, PurgeCSS, the file system, the console).  Each external call
    is modelled as a request recorded in a trace, answered by an oracle of
    the environment [Env]; the script's own control flow (flag tests,
    try/catch, loops, awaits) is modelled in a state-and-exception monad
    over the [World]. *)

From Stdlib Require Import String Ascii List Bool Arith Lia.
From stdpp Require Import base option list strings gmap.

Local Open Scope string_scope.
Local Open Scope list_scope.

(** ** JavaScript built-ins used by the script *)

Module JS.

(** [Array.prototype.includes] on an array of strings. *)
Definition includes (x : string) (l : list string) : bool :=
  existsb (String.eqb x) l.

(** [Array.prototype.slice(n)]. *)
Definition slice (n : nat) (l : list string) : list string := drop n l.

(** [String.prototype.endsWith]. *)
Definition endsWith (s suffix : string) : bool :=
  let n := String.length s in
  let m := String.length suffix in
  Nat.leb m n && String.eqb (substring (n - m) m s) suffix.

(** [String.prototype.split] with a one-character separator. *)
Fixpoint split (sep : ascii) (s : string) : list string :=
  match s with
  | EmptyString => [EmptyString]
  | String c s' =>
      if Ascii.eqb c sep then EmptyString :: split sep s'
      else match split sep s' with
           | [] => [String c EmptyString]
           | p :: ps => String c p :: ps
           end
  end.

(** Interpolation [`${a[i]}`] of an array element inside a template
    literal: a missing element is [undefined], printed as such. *)
Definition interpolate_nth (i : nat) (a : list string) : string :=
  match a !! i with
  | Some s => s
  | None => "undefined"
  end.

(** Truthiness of an optional boolean property ([undefined] is falsy). *)
Definition truthy (v : option bool) : bool :=
  match v with
  | Some true => true
  | _ => false
  end.

End JS.

(** ** Data passed to and from the external tools *)

(** Values a JavaScript [throw] (or a rejected promise) carries. *)
Inductive Exn :=
| Error (message : string)
| TypeError (message : string).

(** The [sourcemap] build option: a mode name or the boolean [false]. *)
Inductive Sourcemap :=
| SourcemapMode (mode : string)
| SourcemapOff.

(** Options given to [sassPlugin]; [cache] is absent unless assigned. *)
Record SassOptions := {
  outputStyle : string;
  cache : option bool;
}.

(** PurgeCSS [safelist] object: [greedy] holds the regular expressions,
    by their source text. *)
Record Safelist := {
  greedy : list string;
}.

(** PurgeCSS [UserDefinedOptions], as far as the script sets them. *)
Record UserDefinedOptions := {
  user_content : option (list string);
  user_css : option (list string);
  safelist : option Safelist;
}.

(** The plugins the script registers: the Sass plugin is an external
    value built from its options, the PurgeCSS plugin is the script's own
    ([purgecssPlugin] below gives its [setup]). *)
Inductive Plugin :=
| sassPlugin (o : SassOptions)
| purgecss (o : UserDefinedOptions).

(** Object literals are association lists in source (insertion) order. *)
Abbreviation Dict := (list (string * string)).

(** esbuild [BuildOptions], as far as the script sets them.  Properties
    the script leaves out are [None] or empty. *)
Record BuildOptions := {
  outdir : string;
  bundle : bool;
  minify : bool;
  sourcemap : Sourcemap;
  sourcesContent : bool;
  logLevel : string;
  entryPoints : Dict;
  target : option string;
  define : Dict;
  metafile : option bool;
  plugins : list Plugin;
  loader : Dict;
}.

(** esbuild [Metafile]: [outputs] maps an output path to its size. *)
Record Metafile := {
  outputs : list (string * nat);
}.

(** esbuild [BuildResult]. *)
Record BuildResult := {
  errors : list string;
  result_metafile : option Metafile;
}.

(** Options of fast-glob. *)
Record GlobOptions := {
  ignore : list string;
  absolute : bool;
}.

(** The object handed to [PurgeCSS.purge]. *)
Record PurgeOptions := {
  content : list string;
  css : list string;
  purge_safelist : option Safelist;
}.

(** One element of the list [PurgeCSS.purge] resolves to. *)
Record ResultPurge := {
  file : string;
  purged_css : string;
}.

(** ** The world and the external calls *)

(** Every call that leaves the script. *)
Inductive Event :=
| EvBuild (o : BuildOptions)
| EvGlob (patterns : list string) (o : GlobOptions)
| EvPurge (o : PurgeOptions)
| EvWriteFile (path data : string)
| EvLog (line : string)
| EvError (e : Exn).

Record World := {
  files : gmap string string;
  trace : list Event;
}.

(** The process environment: the command line and the behaviour of the
    external libraries.  Each oracle sees the world at the time of the
    call, so its answer may depend on everything that happened before. *)
Record Env := {
  argv : list string;
  ext_build : World -> BuildOptions -> gmap string string * (Exn + BuildResult);
  ext_glob : World -> list string -> GlobOptions -> Exn + list string;
  ext_purge : World -> PurgeOptions -> Exn + list ResultPurge;
  ext_writeFile : World -> string -> string -> option Exn;
}.

(** ** The monad of awaited computations *)

Definition M (A : Type) : Type := World -> World * (Exn + A).

Definition ret {A} (a : A) : M A := fun w => (w, inr a).

Definition throw {A} (e : Exn) : M A := fun w => (w, inl e).

Definition bind {A B} (m : M A) (k : A -> M B) : M B :=
  fun w =>
    match m w with
    | (w', inr a) => k a w'
    | (w', inl e) => (w', inl e)
    end.

Notation "'await' x <- m ; k" := (bind m (fun x => k))
  (at level 10, x name, m at level 100, k at level 200).
Notation "'exec' m ; k" := (bind m (fun _ => k))
  (at level 10, m at level 100, k at level 200).

(** [try { body } catch (err) { handler err }]. *)
Definition try_catch {A} (body : M A) (handler : Exn -> M A) : M A :=
  fun w =>
    match body w with
    | (w', inr a) => (w', inr a)
    | (w', inl e) => handler e w'
    end.

(** [for (const x of l) { await body x }]. *)
Fixpoint for_of {A} (l : list A) (body : A -> M unit) : M unit :=
  match l with
  | [] => ret tt
  | x :: l' => exec body x; for_of l' body
  end.

Definition record (ev : Event) (w : World) : World :=
  {| files := files w; trace := trace w ++ [ev] |}.

(** The events a computation adds to the trace when started in [w]. *)
Definition emitted {A} (m : M A) (w : World) : list Event :=
  drop (length (trace w)) (trace (m w).1).

Definition console_log (line : string) : M unit :=
  fun w => (record (EvLog line) w, inr tt).

Definition console_error (e : Exn) : M unit :=
  fun w => (record (EvError e) w, inr tt).

(** ** The script *)

(** Bundler options common to all bundle jobs. *)
Definition options : BuildOptions :=
  {| outdir := "./dist";
     bundle := true;
     minify := true;
     sourcemap := SourcemapMode "external";
     sourcesContent := false;
     logLevel := "error";
     entryPoints := [];
     target := None;
     define := [];
     metafile := None;
     plugins := [];
     loader := [] |}.

(** The patterns given to fast-glob by the PurgeCSS plugin. *)
Definition content_patterns : list string :=
  [ "../../**/*.html";
    "../../**/*.py";
    "./src/**/*.ts";
    "./node_modules/bootstrap/js/src/*.{js,ts}";
    "./node_modules/slim-select/src/**/*.{js,ts}" ].

Definition content_glob_options : GlobOptions :=
  {| ignore := ["**/test_*.py"; "**/__tests__/**"]; absolute := true |}.

(** The message thrown by the PurgeCSS plugin's [setup]. *)
Definition metafile_required : Exn :=
  Error "`metafile` must be set to true in esbuild configuration".

(** The options [bundleStyles] gives to [purgecssPlugin]: the two regular
    expressions of the greedy safelist, by their source text. *)
Definition purgecss_user_options : UserDefinedOptions :=
  {| user_content := None;
     user_css := None;
     safelist := Some {| greedy := ["^ss-"; "^dropdown-"] |} |}.

Definition graphiql_entryPoints : Dict :=
  [ ("graphiql", "netbox-graphiql/index.ts") ].

Definition netbox_entryPoints : Dict :=
  [ ("netbox", "src/index.ts");
    ("lldp", "src/device/lldp.ts");
    ("config", "src/device/config.ts");
    ("status", "src/device/status.ts") ].

Definition styles_entryPoints : Dict :=
  [ ("netbox-external", "styles/_external.scss");
    ("netbox-light", "styles/_light.scss");
    ("netbox-dark", "styles/_dark.scss");
    ("netbox-print", "styles/_print.scss");
    ("rack_elevation", "styles/_rack_elevation.scss");
    ("cable_trace", "styles/_cable_trace.scss");
    ("graphiql", "netbox-graphiql/graphiql.scss") ].

(** The completion line of [bundleNetBox] and [bundleStyles] for one entry
    of [Object.entries(entryPoints)]; [ext] is ["js"] or ["css"]. *)
Definition bundled_line (ext : string) (entry : string * string) : string :=
  let '(targetName, sourceName) := entry in
  let source := JS.interpolate_nth 1 (JS.split "/" sourceName) in
  "✅ Bundled source file '" ++ source ++ "' to '" ++ targetName ++ "." ++ ext ++ "'".

Definition graphiql_line : string :=
  "✅ Bundled source file 'netbox-graphiql/index.ts' to 'graphiql.js'".

Section Script.

Variable env : Env.

(** Get CLI arguments for optional overrides. *)
Definition ARGS : list string := JS.slice 2 (argv env).

(** *** External calls, as the script awaits them *)

Definition esbuild_build (o : BuildOptions) : M BuildResult :=
  fun w =>
    let '(fs, r) := ext_build env w o in
    ({| files := fs; trace := trace w ++ [EvBuild o] |}, r).

Definition glob (patterns : list string) (o : GlobOptions) : M (list string) :=
  fun w => (record (EvGlob patterns o) w, ext_glob env w patterns o).

Definition purgeCSS_purge (o : PurgeOptions) : M (list ResultPurge) :=
  fun w => (record (EvPurge o) w, ext_purge env w o).

Definition fs_writeFile (path data : string) : M unit :=
  fun w =>
    match ext_writeFile env w path data with
    | Some e => (record (EvWriteFile path data) w, inl e)
    | None =>
        ({| files := <[path := data]> (files w);
            trace := trace w ++ [EvWriteFile path data] |}, inr tt)
    end.

(** *** purgecssPlugin *)

(** [Object.keys(args.metafile.outputs)]: reading [outputs] of a missing
    metafile is a [TypeError]. *)
Definition metafile_output_keys (args : BuildResult) : M (list string) :=
  match result_metafile args with
  | Some m => ret (map fst (outputs m))
  | None => throw (TypeError "Cannot read properties of undefined (reading 'outputs')")
  end.

(** The callback registered with [build.onEnd].  In the object
    [{ ...options, content, css }] the two named properties come after the
    spread, so they replace any [content] or [css] of the plugin options;
    the safelist is carried over. *)
Definition purgecssPlugin_onEnd (options : UserDefinedOptions)
    (args : BuildResult) : M unit :=
  await outputKeys <- metafile_output_keys args;
  let css := List.filter (fun k => JS.endsWith k ".css") outputKeys in
  await content <- glob content_patterns content_glob_options;
  await res <- purgeCSS_purge
    {| content := content; css := css; purge_safelist := safelist options |};
  for_of res (fun r => fs_writeFile (file r) (purged_css r)).

(** [setup(build)]: throws, or registers the [onEnd] callback, which is
    returned here. *)
Definition purgecssPlugin_setup (options : UserDefinedOptions)
    (initialOptions : BuildOptions) : Exn + (BuildResult -> M unit) :=
  if negb (JS.truthy (metafile initialOptions))
  then inl metafile_required
  else inr (purgecssPlugin_onEnd options).

(** [purgecssPlugin(options)] with its default [options = {}]. *)
Definition purgecssPlugin (options : option UserDefinedOptions) : Plugin :=
  purgecss (default {| user_content := None; user_css := None; safelist := None |}
                    options).

(** What esbuild calls on a registered plugin. *)
Definition plugin_setup (p : Plugin) (initialOptions : BuildOptions)
    : option (Exn + (BuildResult -> M unit)) :=
  match p with
  | purgecss o => Some (purgecssPlugin_setup o initialOptions)
  | sassPlugin _ => None
  end.

(** *** bundleGraphIQL *)

Definition graphiql_build_options : BuildOptions :=
  {| outdir := outdir options;
     bundle := bundle options;
     minify := minify options;
     sourcemap := sourcemap options;
     sourcesContent := sourcesContent options;
     logLevel := logLevel options;
     entryPoints := graphiql_entryPoints;
     target := Some "es2016";
     define := [("global", "window")];
     metafile := metafile options;
     plugins := plugins options;
     loader := loader options |}.

Definition bundleGraphIQL : M unit :=
  try_catch
    (await result <- esbuild_build graphiql_build_options;
     if Nat.eqb (length (errors result)) 0
     then console_log graphiql_line
     else ret tt)
    (fun err => console_error err).

(** *** bundleNetBox: bundle core NetBox JavaScript *)

Definition netbox_build_options : BuildOptions :=
  {| outdir := outdir options;
     bundle := bundle options;
     minify := minify options;
     sourcemap := sourcemap options;
     sourcesContent := sourcesContent options;
     logLevel := logLevel options;
     entryPoints := netbox_entryPoints;
     target := Some "es2016";
     define := define options;
     metafile := metafile options;
     plugins := plugins options;
     loader := loader options |}.

Definition bundleNetBox : M unit :=
  let entryPoints := netbox_entryPoints in
  try_catch
    (await result <- esbuild_build netbox_build_options;
     if Nat.eqb (length (errors result)) 0
     then for_of entryPoints (fun entry => console_log (bundled_line "js" entry))
     else ret tt)
    (fun err => console_error err).

(** *** bundleScripts: run script bundle jobs *)

Definition bundleScripts : M unit :=
  for_of [bundleNetBox; bundleGraphIQL] (fun bundle => bundle).

(** *** bundleStyles: run style bundle jobs *)

(** [pluginOptions], after the optional assignment of [cache]. *)
Definition pluginOptions : SassOptions :=
  let pluginOptions := {| outputStyle := "compressed"; cache := None |} in
  if JS.includes "--no-cache" ARGS
  then {| outputStyle := outputStyle pluginOptions; cache := Some false |}
  else pluginOptions.

Definition styles_build_options : BuildOptions :=
  {| outdir := outdir options;
     bundle := bundle options;
     minify := minify options;
     sourcemap := SourcemapOff;
     sourcesContent := sourcesContent options;
     logLevel := logLevel options;
     entryPoints := styles_entryPoints;
     target := target options;
     define := define options;
     metafile := Some true;
     plugins :=
       [ sassPlugin pluginOptions;
         purgecssPlugin (Some purgecss_user_options) ];
     loader :=
       [ (".eot", "file"); (".woff", "file"); (".woff2", "file");
         (".svg", "file"); (".ttf", "file") ] |}.

Definition bundleStyles : M unit :=
  try_catch
    (let entryPoints := styles_entryPoints in
     await result <- esbuild_build styles_build_options;
     if Nat.eqb (length (errors result)) 0
     then for_of entryPoints (fun entry => console_log (bundled_line "css" entry))
     else ret tt)
    (fun err => console_error err).

(** *** bundleAll: run all bundle jobs *)

Definition bundleAll : M unit :=
  if JS.includes "--styles" ARGS then
    (* Only run style jobs. *)
    bundleStyles
  else if JS.includes "--scripts" ARGS then
    (* Only run script jobs. *)
    bundleScripts
  else
    exec bundleStyles;
    bundleScripts.

(** *** The process *)

(** The module body ends with the call [bundleAll();]. *)
Definition main : M unit := bundleAll.

(** The exit code of the Node.js process once [main] has settled.  The
    script never assigns [process.exitCode] and never calls
    [process.exit], so the code is the runtime's own: 0 when the promise
    of [main] is fulfilled, 1 when it is rejected and nobody handles the
    rejection. *)
Definition exit_code (w : World) : nat :=
  match (main w).2 with
  | inr _ => 0
  | inl _ => 1
  end.

End Script.

(** ** Observing a run *)

(** The three bundle jobs that wrap one external build call each. *)
Inductive Phase := Styles | NetBox | GraphIQL.

Definition phase_run (env : Env) (p : Phase) : M unit :=
  match p with
  | Styles => bundleStyles env
  | NetBox => bundleNetBox env
  | GraphIQL => bundleGraphIQL env
  end.

Definition phase_request (env : Env) (p : Phase) : BuildOptions :=
  match p with
  | Styles => styles_build_options env
  | NetBox => netbox_build_options
  | GraphIQL => graphiql_build_options
  end.

(** The completion lines a job prints after a build without errors. *)
Definition phase_lines (p : Phase) : list string :=
  match p with
  | Styles => map (bundled_line "css") styles_entryPoints
  | NetBox => map (bundled_line "js") netbox_entryPoints
  | GraphIQL => [graphiql_line]
  end.

(** The events of one job, given the answer of the build call. *)
Definition phase_events (o : BuildOptions) (reply : Exn + BuildResult)
    (lines : list string) : list Event :=
  EvBuild o ::
  match reply with
  | inl e => [EvError e]
  | inr r => if Nat.eqb (length (errors r)) 0 then map EvLog lines else []
  end.

Definition is_style_build (ev : Event) : bool :=
  match ev with
  | EvBuild o => bool_decide (entryPoints o = styles_entryPoints)
  | _ => false
  end.

Definition is_script_build (ev : Event) : bool :=
  match ev with
  | EvBuild o =>
      bool_decide (entryPoints o = netbox_entryPoints)
      || bool_decide (entryPoints o = graphiql_entryPoints)
  | _ => false
  end.

(** Which phases a run of [bundleAll] started: (style phase, script
    phase), told by the build calls it made. *)
Definition phases_run (env : Env) (w : World) : bool * bool :=
  let evs := emitted (bundleAll env) w in
  (existsb is_style_build evs, existsb is_script_build evs).

(** What [console.log] and [console.error] received. *)
Definition logged (evs : list Event) : list Event :=
  List.filter (fun ev => match ev with EvLog _ | EvError _ => true | _ => false end) evs.

Definition purge_calls (evs : list Event) : list PurgeOptions :=
  omap (fun ev => match ev with EvPurge o => Some o | _ => None end) evs.

Definition glob_calls (evs : list Event) : list (list string * GlobOptions) :=
  omap (fun ev => match ev with EvGlob p o => Some (p, o) | _ => None end) evs.

(** The same environment started with another command line. *)
Definition with_argv (a : list string) (env : Env) : Env :=
  {| argv := a;
     ext_build := ext_build env;
     ext_glob := ext_glob env;
     ext_purge := ext_purge env;
     ext_writeFile := ext_writeFile env |}.

(** The build options with the options of the Sass plugin replaced. *)
Definition set_sass_options (s : SassOptions) (o : BuildOptions) : BuildOptions :=
  {| outdir := outdir o; bundle := bundle o; minify := minify o;
     sourcemap := sourcemap o; sourcesContent := sourcesContent o;
     logLevel := logLevel o; entryPoints := entryPoints o;
     target := target o; define := define o; metafile := metafile o;
     plugins := map (fun p => match p with
                              | sassPlugin _ => sassPlugin s
                              | _ => p
                              end) (plugins o);
     loader := loader o |}.

Definition write_events (res : list ResultPurge) : list Event :=
  map (fun r => EvWriteFile (file r) (purged_css r)) res.

(** The file system after the writes [res] asks for, in order. *)
Definition write_all (res : list ResultPurge) (fs : gmap string string)
    : gmap string string :=
  foldl (fun fs r => <[file r := purged_css r]> fs) fs res.

(** The build requests among some events, in order. *)
Definition build_calls (evs : list Event) : list BuildOptions :=
  omap (fun ev => match ev with EvBuild o => Some o | _ => None end) evs.

(** Whether a character occurs in a string. *)
Fixpoint has_char (c : ascii) (s : string) : bool :=
  match s with
  | EmptyString => false
  | String c' s' => Ascii.eqb c' c || has_char c s'
  end.

(** ** Concrete environments *)

Definition empty_world : World := {| files := ∅; trace := [] |}.

Definition node_argv (args : list string) : list string :=
  "/usr/bin/node" :: "bundle.js" :: args.

Definition clean_metafile : Metafile :=
  {| outputs := [ ("dist/netbox-light.css", 10);
                  ("dist/netbox-light.css.map", 20);
                  ("dist/a.woff", 30);
                  ("dist/netbox-dark.css", 40) ] |}.

Definition clean_result : BuildResult :=
  {| errors := []; result_metafile := Some clean_metafile |}.

(** A build that resolves without errors, with a metafile when one was
    requested. *)
Definition build_clean (w : World) (o : BuildOptions)
    : gmap string string * (Exn + BuildResult) :=
  (files w,
   inr {| errors := [];
          result_metafile :=
            if JS.truthy (metafile o)
            then Some clean_metafile
            else None |}).

(** A build that rejects. *)
Definition build_rejects (w : World) (o : BuildOptions)
    : gmap string string * (Exn + BuildResult) :=
  (files w, inl (Error "Build failed with 1 error")).

(** A build that resolves with an error message in its result. *)
Definition build_with_errors (w : World) (o : BuildOptions)
    : gmap string string * (Exn + BuildResult) :=
  (files w, inr {| errors := ["Could not resolve"]; result_metafile := None |}).

Definition glob_finds (w : World) (patterns : list string) (o : GlobOptions)
    : Exn + list string :=
  inr ["/opt/netbox/netbox/templates/base.html"; "/opt/netbox/netbox/netbox/views.py"].

Definition purge_each (w : World) (o : PurgeOptions) : Exn + list ResultPurge :=
  inr (map (fun f => {| file := f; purged_css := "a{color:red}" |}) (css o)).

Definition env_with (args : list string)
    (build : World -> BuildOptions -> gmap string string * (Exn + BuildResult))
    : Env :=
  {| argv := node_argv args;
     ext_build := build;
     ext_glob := glob_finds;
     ext_purge := purge_each;
     ext_writeFile := fun _ _ _ => None |}.

(** Answers of the libraries the PurgeCSS callback calls: a rejecting
    fast-glob, a rejecting PurgeCSS, a PurgeCSS that names one file twice,
    and a file system that refuses to write one path. *)
Definition glob_rejects (w : World) (patterns : list string) (o : GlobOptions)
    : Exn + list string :=
  inl (Error "EMFILE: too many open files").

Definition purge_rejects (w : World) (o : PurgeOptions) : Exn + list ResultPurge :=
  inl (Error "CssSyntaxError: Unclosed block").

Definition purge_twice (w : World) (o : PurgeOptions) : Exn + list ResultPurge :=
  inr [ {| file := "dist/netbox-light.css"; purged_css := "a{color:red}" |};
        {| file := "dist/netbox-light.css"; purged_css := "a{color:blue}" |} ].

Definition write_denied (denied : string) (w : World) (path data : string)
    : option Exn :=
  if String.eqb path denied
  then Some (Error "EACCES: permission denied")
  else None.

Definition env_plugin
    (glob : World -> list string -> GlobOptions -> Exn + list string)
    (purge : World -> PurgeOptions -> Exn + list ResultPurge)
    (write : World -> string -> string -> option Exn) : Env :=
  {| argv := node_argv ["--styles"];
     ext_build := build_clean;
     ext_glob := glob;
     ext_purge := purge;
     ext_writeFile := write |}.

(** A build result without a metafile. *)
Definition bare_result : BuildResult :=
  {| errors := []; result_metafile := None |}.

(** The world after the PurgeCSS callback ran on [clean_result]. *)
Definition purged_world : World :=
  (purgecssPlugin_onEnd (env_with ["--styles"] build_clean)
     purgecss_user_options clean_result empty_world).1.

(** ** Basic facts about runs *)

Lemma emitted_app {A} (m : M A) (w : World) (evs : list Event) :
  trace (m w).1 = trace w ++ evs -> emitted m w = evs.
Proof.
  intros H. unfold emitted. rewrite H. apply drop_app_length.
Qed.

Lemma record_trace ev w : trace (record ev w) = trace w ++ [ev].
Proof. reflexivity. Qed.

Lemma for_of_console_log {A} (f : A -> string) (l : list A) (w : World) :
  for_of l (fun x => console_log (f x)) w =
  ({| files := files w; trace := trace w ++ map (fun x => EvLog (f x)) l |}, inr tt).
Proof.
  revert w. induction l as [|x l IH]; intros w; simpl.
  - unfold ret. destruct w as [fs tr]; simpl. by rewrite app_nil_r.
  - unfold bind, console_log. rewrite IH. simpl.
    by rewrite <- app_assoc.
Qed.

(** Each job makes its build call, then prints what [phase_events] says,
    and always returns normally. *)
Lemma phase_run_eq (env : Env) (p : Phase) (w : World) :
  phase_run env p w =
  ({| files := (ext_build env w (phase_request env p)).1;
      trace := trace w ++ phase_events (phase_request env p)
                            (ext_build env w (phase_request env p)).2
                            (phase_lines p) |},
   inr tt).
Proof.
  destruct p; simpl;
    unfold bundleStyles, bundleNetBox, bundleGraphIQL, try_catch, bind, esbuild_build;
    destruct (ext_build env w _) as [fs [e|r]]; simpl;
    unfold phase_events, console_error, console_log, record, ret; simpl;
    try (by rewrite <- app_assoc);
    destruct (Nat.eqb (length (errors r)) 0); simpl;
    rewrite ?for_of_console_log; simpl; rewrite <- ?app_assoc; reflexivity.
Qed.

Lemma phase_returns (env : Env) (p : Phase) (w : World) :
  (phase_run env p w).2 = inr tt.
Proof. by rewrite phase_run_eq. Qed.

Lemma phase_emitted (env : Env) (p : Phase) (w : World) :
  emitted (phase_run env p) w =
  phase_events (phase_request env p) (ext_build env w (phase_request env p)).2
    (phase_lines p).
Proof. apply emitted_app. by rewrite phase_run_eq. Qed.

Lemma phase_trace (env : Env) (p : Phase) (w : World) :
  trace (phase_run env p w).1 = trace w ++ emitted (phase_run env p) w.
Proof. rewrite phase_emitted. by rewrite phase_run_eq. Qed.

Lemma bundleStyles_trace (env : Env) (w : World) :
  trace (bundleStyles env w).1 = trace w ++ emitted (bundleStyles env) w.
Proof. exact (phase_trace env Styles w). Qed.

Lemma bundleNetBox_trace (env : Env) (w : World) :
  trace (bundleNetBox env w).1 = trace w ++ emitted (bundleNetBox env) w.
Proof. exact (phase_trace env NetBox w). Qed.

Lemma bundleGraphIQL_trace (env : Env) (w : World) :
  trace (bundleGraphIQL env w).1 = trace w ++ emitted (bundleGraphIQL env) w.
Proof. exact (phase_trace env GraphIQL w). Qed.

Lemma bundleStyles_emitted (env : Env) (w : World) :
  emitted (bundleStyles env) w =
  phase_events (styles_build_options env)
    (ext_build env w (styles_build_options env)).2 (phase_lines Styles).
Proof. exact (phase_emitted env Styles w). Qed.

Lemma bundleNetBox_emitted (env : Env) (w : World) :
  emitted (bundleNetBox env) w =
  phase_events netbox_build_options
    (ext_build env w netbox_build_options).2 (phase_lines NetBox).
Proof. exact (phase_emitted env NetBox w). Qed.

Lemma bundleGraphIQL_emitted (env : Env) (w : World) :
  emitted (bundleGraphIQL env) w =
  phase_events graphiql_build_options
    (ext_build env w graphiql_build_options).2 (phase_lines GraphIQL).
Proof. exact (phase_emitted env GraphIQL w). Qed.

(** The script phase is the NetBox job, then the GraphiQL job started in
    the world the first one left. *)
Lemma bundleScripts_eq (env : Env) (w : World) :
  bundleScripts env w = bundleGraphIQL env (bundleNetBox env w).1.
Proof.
  unfold bundleScripts, for_of, bind, ret.
  pose proof (phase_run_eq env NetBox w) as HN. simpl in HN. rewrite HN.
  pose proof (phase_run_eq env GraphIQL) as HG. simpl in HG. by rewrite HG.
Qed.

Lemma bundleScripts_returns (env : Env) (w : World) :
  (bundleScripts env w).2 = inr tt.
Proof.
  rewrite bundleScripts_eq. apply (phase_returns env GraphIQL).
Qed.

Lemma bundleScripts_trace (env : Env) (w : World) :
  trace (bundleScripts env w).1 =
  trace w ++ emitted (bundleNetBox env) w
          ++ emitted (bundleGraphIQL env) (bundleNetBox env w).1.
Proof.
  rewrite bundleScripts_eq.
  rewrite bundleGraphIQL_trace, bundleNetBox_trace.
  by rewrite <- app_assoc.
Qed.

Lemma bundleScripts_emitted (env : Env) (w : World) :
  emitted (bundleScripts env) w =
  emitted (bundleNetBox env) w
  ++ emitted (bundleGraphIQL env) (bundleNetBox env w).1.
Proof. apply emitted_app, bundleScripts_trace. Qed.

(** Without a restricting flag, [bundleAll] is the style phase followed by
    the script phase. *)
Lemma bundleAll_both_eq (env : Env) (w : World) :
  JS.includes "--styles" (ARGS env) = false ->
  JS.includes "--scripts" (ARGS env) = false ->
  bundleAll env w = bundleScripts env (bundleStyles env w).1.
Proof.
  intros Hst Hsc. unfold bundleAll. rewrite Hst, Hsc. unfold bind.
  pose proof (phase_run_eq env Styles w) as HS. simpl in HS. by rewrite HS.
Qed.

Lemma existsb_logs (f : Event -> bool) (lines : list string) :
  (forall l, f (EvLog l) = false) -> existsb f (map EvLog lines) = false.
Proof.
  intros Hf. induction lines as [|l lines IH]; simpl; [done|].
  by rewrite Hf, IH.
Qed.

Lemma phase_events_style_build (env : Env) (p : Phase) reply lines :
  existsb is_style_build (phase_events (phase_request env p) reply lines) =
  match p with Styles => true | _ => false end.
Proof.
  unfold phase_events.
  assert (Htail : existsb is_style_build
            match reply with
            | inl e => [EvError e]
            | inr r => if Nat.eqb (length (errors r)) 0 then map EvLog lines else []
            end = false).
  { destruct reply as [e|r]; [done|].
    destruct (Nat.eqb _ _); [by apply existsb_logs | done]. }
  simpl. rewrite Htail. by destruct p.
Qed.

Lemma phase_events_script_build (env : Env) (p : Phase) reply lines :
  existsb is_script_build (phase_events (phase_request env p) reply lines) =
  match p with Styles => false | _ => true end.
Proof.
  unfold phase_events.
  assert (Htail : existsb is_script_build
            match reply with
            | inl e => [EvError e]
            | inr r => if Nat.eqb (length (errors r)) 0 then map EvLog lines else []
            end = false).
  { destruct reply as [e|r]; [done|].
    destruct (Nat.eqb _ _); [by apply existsb_logs | done]. }
  simpl. rewrite Htail. by destruct p.
Qed.

Lemma bundleStyles_builds (env : Env) (w : World) :
  existsb is_style_build (emitted (bundleStyles env) w) = true /\
  existsb is_script_build (emitted (bundleStyles env) w) = false.
Proof.
  rewrite bundleStyles_emitted.
  by rewrite (phase_events_style_build env Styles),
             (phase_events_script_build env Styles).
Qed.

Lemma bundleScripts_builds (env : Env) (w : World) :
  existsb is_style_build (emitted (bundleScripts env) w) = false /\
  existsb is_script_build (emitted (bundleScripts env) w) = true.
Proof.
  rewrite bundleScripts_emitted, !existsb_app.
  rewrite bundleNetBox_emitted, bundleGraphIQL_emitted.
  by rewrite (phase_events_style_build env NetBox),
             (phase_events_style_build env GraphIQL),
             (phase_events_script_build env NetBox),
             (phase_events_script_build env GraphIQL).
Qed.

Lemma bundleAll_both_trace (env : Env) (w : World) :
  JS.includes "--styles" (ARGS env) = false ->
  JS.includes "--scripts" (ARGS env) = false ->
  trace (bundleAll env w).1 =
  trace w ++ emitted (bundleStyles env) w
          ++ emitted (bundleScripts env) (bundleStyles env w).1.
Proof.
  intros Hst Hsc. rewrite (bundleAll_both_eq env w Hst Hsc).
  rewrite bundleScripts_trace, <- bundleScripts_emitted.
  rewrite bundleStyles_trace.
  by rewrite <- app_assoc.
Qed.

(** Which phases run is decided by the two restricting flags alone. *)
Lemma phases_run_eq (env : Env) (w : World) :
  phases_run env w =
  if JS.includes "--styles" (ARGS env) then (true, false)
  else if JS.includes "--scripts" (ARGS env) then (false, true)
  else (true, true).
Proof.
  unfold phases_run.
  destruct (JS.includes "--styles" (ARGS env)) eqn:Hst.
  - unfold bundleAll. rewrite Hst.
    by destruct (bundleStyles_builds env w) as [-> ->].
  - destruct (JS.includes "--scripts" (ARGS env)) eqn:Hsc.
    + unfold bundleAll. rewrite Hst, Hsc.
      by destruct (bundleScripts_builds env w) as [-> ->].
    + rewrite (emitted_app _ _ _ (bundleAll_both_trace env w Hst Hsc)).
      rewrite !existsb_app.
      destruct (bundleStyles_builds env w) as [-> ->].
      by destruct (bundleScripts_builds env (bundleStyles env w).1) as [-> ->].
Qed.

Lemma bundleAll_returns (env : Env) (w : World) :
  (bundleAll env w).2 = inr tt.
Proof.
  destruct (JS.includes "--styles" (ARGS env)) eqn:Hst;
    [| destruct (JS.includes "--scripts" (ARGS env)) eqn:Hsc ].
  - unfold bundleAll. rewrite Hst. apply (phase_returns env Styles).
  - unfold bundleAll. rewrite Hst, Hsc. apply bundleScripts_returns.
  - rewrite (bundleAll_both_eq env w Hst Hsc). apply bundleScripts_returns.
Qed.

Lemma logged_logs (lines : list string) :
  logged (map EvLog lines) = map EvLog lines.
Proof.
  induction lines as [|l lines IH]; [done|].
  unfold logged in *. simpl. by rewrite IH.
Qed.

(** ** Phase selection *)

(** C1 (as amended): for every invocation of bundleAll, if the argument list
    contains '--styles' only the style phase runs; if it contains
    '--scripts' and not '--styles' only the script phase runs; if it
    contains neither, both phases run, the script phase starting in the
    world the style phase left. *)
Theorem bundleAll_phase_selection (env : Env) (w : World) :
  phases_run env w =
    (if JS.includes "--styles" (ARGS env) then (true, false)
     else if JS.includes "--scripts" (ARGS env) then (false, true)
     else (true, true)) /\
  bundleAll env w =
    (if JS.includes "--styles" (ARGS env) then bundleStyles env w
     else if JS.includes "--scripts" (ARGS env) then bundleScripts env w
     else bundleScripts env (bundleStyles env w).1).
Proof.
  split; [apply phases_run_eq|].
  destruct (JS.includes "--styles" (ARGS env)) eqn:Hst;
    [| destruct (JS.includes "--scripts" (ARGS env)) eqn:Hsc ].
  - unfold bundleAll. by rewrite Hst.
  - unfold bundleAll. by rewrite Hst, Hsc.
  - by apply bundleAll_both_eq.
Qed.

(** C1 as stated fails: with both flags on the command line the argument
    list contains '--scripts', yet the style phase runs and the script
    phase does not. *)
Lemma scripts_flag_not_sufficient :
  ~ (JS.includes "--scripts" (ARGS (env_with ["--styles"; "--scripts"] build_clean)) = true ->
     phases_run (env_with ["--styles"; "--scripts"] build_clean) empty_world
     = (false, true)).
Proof.
  intros H. specialize (H eq_refl).
  rewrite phases_run_eq in H. discriminate H.
Qed.

(** C8: when the argument list contains both '--styles' and '--scripts',
    only the style phase runs: the run is that of bundleStyles and no
    script build call is made. *)
Theorem styles_flag_takes_precedence (env : Env) (w : World) :
  JS.includes "--styles" (ARGS env) = true ->
  JS.includes "--scripts" (ARGS env) = true ->
  bundleAll env w = bundleStyles env w /\
  phases_run env w = (true, false) /\
  existsb is_script_build (emitted (bundleAll env) w) = false.
Proof.
  intros Hst _.
  assert (Heq : bundleAll env = bundleStyles env)
    by (unfold bundleAll; by rewrite Hst).
  split; [by rewrite Heq|].
  split; [by rewrite phases_run_eq, Hst|].
  rewrite Heq. apply bundleStyles_builds.
Qed.

Lemma styles_flag_takes_precedence_witness :
  bundleAll (env_with ["--styles"; "--scripts"] build_clean) empty_world
  = bundleStyles (env_with ["--styles"; "--scripts"] build_clean) empty_world /\
  phases_run (env_with ["--styles"; "--scripts"] build_clean) empty_world
  = (true, false) /\
  existsb is_script_build
    (emitted (bundleAll (env_with ["--styles"; "--scripts"] build_clean)) empty_world)
  = false.
Proof.
  apply (styles_flag_takes_precedence
           (env_with ["--styles"; "--scripts"] build_clean) empty_world);
    reflexivity.
Defined.

(** C3: without a restricting flag the style phase runs to completion
    before the script phase starts: the style phase returns, the script
    phase starts in the world it left, and the trace of the run is the
    events of the style phase (its build call first) followed by the events
    of the script phase (the NetBox build call first), with no script build
    among the former and no style build among the latter. *)
Theorem styles_then_scripts (env : Env) (w : World) :
  JS.includes "--styles" (ARGS env) = false ->
  JS.includes "--scripts" (ARGS env) = false ->
  (bundleStyles env w).2 = inr tt /\
  bundleAll env w = bundleScripts env (bundleStyles env w).1 /\
  trace (bundleAll env w).1 =
    trace w ++ emitted (bundleStyles env) w
            ++ emitted (bundleScripts env) (bundleStyles env w).1 /\
  head (emitted (bundleStyles env) w) = Some (EvBuild (styles_build_options env)) /\
  head (emitted (bundleScripts env) (bundleStyles env w).1)
    = Some (EvBuild netbox_build_options) /\
  existsb is_script_build (emitted (bundleStyles env) w) = false /\
  existsb is_style_build (emitted (bundleScripts env) (bundleStyles env w).1) = false.
Proof.
  intros Hst Hsc.
  split; [apply (phase_returns env Styles)|].
  split; [by apply bundleAll_both_eq|].
  split; [by apply bundleAll_both_trace|].
  split; [by rewrite bundleStyles_emitted|].
  split; [by rewrite bundleScripts_emitted, bundleNetBox_emitted|].
  split; [apply bundleStyles_builds | apply bundleScripts_builds].
Qed.

Lemma styles_then_scripts_witness :
  trace (bundleAll (env_with ["--no-cache"] build_clean) empty_world).1 =
    trace empty_world
    ++ emitted (bundleStyles (env_with ["--no-cache"] build_clean)) empty_world
    ++ emitted (bundleScripts (env_with ["--no-cache"] build_clean))
         (bundleStyles (env_with ["--no-cache"] build_clean) empty_world).1.
Proof.
  apply (styles_then_scripts (env_with ["--no-cache"] build_clean) empty_world);
    reflexivity.
Defined.

(** ** Errors of the build call *)

(** C2: an error thrown by the external build call of a bundle job
    (bundleStyles, bundleNetBox, bundleGraphIQL) is caught in that job and
    logged with console.error; the job returns normally, execution
    continues with the next job, bundleAll never rejects, and the process
    ends with exit code 0. *)
Theorem build_error_is_caught (env : Env) (p : Phase) (w : World) (e : Exn) :
  (ext_build env w (phase_request env p)).2 = inl e ->
  (phase_run env p w).2 = inr tt /\
  emitted (phase_run env p) w = [EvBuild (phase_request env p); EvError e] /\
  bundleScripts env w = bundleGraphIQL env (bundleNetBox env w).1 /\
  (JS.includes "--styles" (ARGS env) = false ->
   JS.includes "--scripts" (ARGS env) = false ->
   bundleAll env w = bundleScripts env (bundleStyles env w).1) /\
  (forall w', (bundleAll env w').2 = inr tt) /\
  (forall w', exit_code env w' = 0).
Proof.
  intros Hthrow.
  split; [apply phase_returns|].
  split.
  { rewrite phase_emitted, Hthrow. reflexivity. }
  split; [apply bundleScripts_eq|].
  split; [apply bundleAll_both_eq|].
  split; [intros w'; apply bundleAll_returns|].
  intros w'. unfold exit_code, main. by rewrite bundleAll_returns.
Qed.

Lemma build_error_is_caught_witness :
  (phase_run (env_with [] build_rejects) Styles empty_world).2 = inr tt /\
  emitted (phase_run (env_with [] build_rejects) Styles) empty_world
  = [EvBuild (styles_build_options (env_with [] build_rejects));
     EvError (Error "Build failed with 1 error")] /\
  exit_code (env_with [] build_rejects) empty_world = 0.
Proof.
  destruct (build_error_is_caught (env_with [] build_rejects) Styles empty_world
              (Error "Build failed with 1 error") eq_refl)
    as (Hret & Hev & _ & _ & _ & Hexit).
  split; [exact Hret|]. split; [exact Hev|]. apply Hexit.
Defined.

(** C10: when the build call of a job resolves with a non-empty errors
    array, the job prints nothing: its only event is the build call,
    neither a completion line nor an error reaches the console. *)
Theorem build_result_errors_are_silent (env : Env) (p : Phase) (w : World)
    (r : BuildResult) :
  (ext_build env w (phase_request env p)).2 = inr r ->
  errors r <> [] ->
  emitted (phase_run env p) w = [EvBuild (phase_request env p)] /\
  logged (emitted (phase_run env p) w) = [] /\
  (phase_run env p w).2 = inr tt.
Proof.
  intros Hres Herr.
  assert (Hev : emitted (phase_run env p) w = [EvBuild (phase_request env p)]).
  { rewrite phase_emitted, Hres. unfold phase_events.
    destruct (errors r); [done | reflexivity]. }
  split; [exact Hev|]. split; [by rewrite Hev | apply phase_returns].
Qed.

Lemma build_result_errors_are_silent_witness :
  emitted (phase_run (env_with [] build_with_errors) NetBox) empty_world
  = [EvBuild netbox_build_options] /\
  logged (emitted (phase_run (env_with [] build_with_errors) NetBox) empty_world) = [] /\
  (phase_run (env_with [] build_with_errors) NetBox empty_world).2 = inr tt.
Proof.
  apply (build_result_errors_are_silent (env_with [] build_with_errors) NetBox
           empty_world {| errors := ["Could not resolve"]; result_metafile := None |});
    [reflexivity | discriminate].
Defined.

(** ** Completion messages *)

(** After a build without errors a job prints one line per entry point,
    in the order of the entry-point map. *)
Lemma completion_lines_per_entry (env : Env) (p : Phase) (w : World)
    (r : BuildResult) :
  (ext_build env w (phase_request env p)).2 = inr r ->
  errors r = [] ->
  logged (emitted (phase_run env p) w) = map EvLog (phase_lines p) /\
  length (phase_lines p) = length (entryPoints (phase_request env p)).
Proof.
  intros Hres Herr. split; [|by destruct p].
  rewrite phase_emitted, Hres. unfold phase_events. rewrite Herr. simpl.
  change (logged (EvBuild (phase_request env p) :: map EvLog (phase_lines p)))
    with (logged (map EvLog (phase_lines p))).
  apply logged_logs.
Qed.

(** C7 (the code departs from it): after a NetBox build without errors the
    four completion lines are printed, but the lines for the lldp, config
    and status bundles name the directory 'device', the second component
    of the source path, and not the source files lldp.ts, config.ts and
    status.ts. *)
Theorem bundleNetBox_lines_name_directory (env : Env) (w : World)
    (r : BuildResult) :
  (ext_build env w netbox_build_options).2 = inr r ->
  errors r = [] ->
  logged (emitted (bundleNetBox env) w) =
  [ EvLog "✅ Bundled source file 'index.ts' to 'netbox.js'";
    EvLog "✅ Bundled source file 'device' to 'lldp.js'";
    EvLog "✅ Bundled source file 'device' to 'config.js'";
    EvLog "✅ Bundled source file 'device' to 'status.js'" ].
Proof.
  intros Hres Herr.
  destruct (completion_lines_per_entry env NetBox w r Hres Herr) as [H _].
  exact H.
Qed.

Lemma bundleNetBox_lines_name_directory_witness :
  logged (emitted (bundleNetBox (env_with ["--scripts"] build_clean)) empty_world) =
  [ EvLog "✅ Bundled source file 'index.ts' to 'netbox.js'";
    EvLog "✅ Bundled source file 'device' to 'lldp.js'";
    EvLog "✅ Bundled source file 'device' to 'config.js'";
    EvLog "✅ Bundled source file 'device' to 'status.js'" ].
Proof.
  apply (bundleNetBox_lines_name_directory (env_with ["--scripts"] build_clean)
           empty_world {| errors := []; result_metafile := None |});
    reflexivity.
Defined.

(** ** The PurgeCSS plugin *)

Lemma write_all_notin (res : list ResultPurge) (fs : gmap string string) (f : string) :
  f ∉ map file res -> write_all res fs !! f = fs !! f.
Proof.
  revert fs. induction res as [|x res IH]; intros fs Hf; [done|].
  simpl in *. apply not_elem_of_cons in Hf as [Hne Hf].
  rewrite (IH _ Hf). by apply lookup_insert_ne.
Qed.

Lemma write_all_in (res : list ResultPurge) (fs : gmap string string) (r : ResultPurge) :
  r ∈ res ->
  exists r', r' ∈ res /\ file r' = file r /\
             write_all res fs !! file r = Some (purged_css r').
Proof.
  revert fs r. induction res as [|x res IH]; intros fs r Hr;
    [by apply elem_of_nil in Hr|].
  simpl. destruct (decide (file r ∈ map file res)) as [Hin|Hnot].
  - apply list_elem_of_fmap in Hin as (r0 & Hf & Hr0).
    destruct (IH (<[file x := purged_css x]> fs) r0 Hr0) as (r' & Hr' & Hfile & Hlook).
    exists r'. split; [by apply elem_of_cons; right|].
    split; [congruence|]. by rewrite Hf.
  - apply elem_of_cons in Hr as [->|Hr].
    + exists x. split; [by apply elem_of_cons; left|]. split; [done|].
      rewrite (write_all_notin _ _ _ Hnot). apply lookup_insert_eq.
    + exfalso. apply Hnot. apply list_elem_of_fmap. by exists r.
Qed.

Lemma write_all_nodup (res : list ResultPurge) (fs : gmap string string) (r : ResultPurge) :
  NoDup (map file res) -> r ∈ res ->
  write_all res fs !! file r = Some (purged_css r).
Proof.
  revert fs. induction res as [|x res IH]; intros fs Hnd Hr; [by apply elem_of_nil in Hr|].
  simpl in *. apply NoDup_cons in Hnd as [Hx Hnd].
  apply elem_of_cons in Hr as [->|Hr].
  - rewrite (write_all_notin _ _ _ Hx). apply lookup_insert_eq.
  - by apply IH.
Qed.

Section Plugin.

Variable env : Env.

(** A loop of writes that completes has made every write, in order. *)
Lemma for_of_writeFile_ok (res : list ResultPurge) (w w' : World) :
  for_of res (fun r => fs_writeFile env (file r) (purged_css r)) w = (w', inr tt) ->
  files w' = write_all res (files w) /\
  trace w' = trace w ++ write_events res.
Proof.
  revert w. induction res as [|x res IH]; intros w H; simpl in H.
  - unfold ret in H. injection H as <-. by rewrite app_nil_r.
  - unfold bind, fs_writeFile in H.
    destruct (ext_writeFile env w (file x) (purged_css x)) as [e|]; [discriminate|].
    apply IH in H as [Hfs Htr]. simpl in *.
    split; [exact Hfs|]. by rewrite Htr, <- app_assoc.
Qed.

(** Whether or not it completes, the loop only adds write events. *)
Lemma for_of_writeFile_trace (res : list ResultPurge) (w : World) :
  exists n,
    trace (for_of res (fun r => fs_writeFile env (file r) (purged_css r)) w).1
    = trace w ++ write_events (take n res).
Proof.
  revert w. induction res as [|x res IH]; intros w; simpl.
  - exists 0. by rewrite app_nil_r.
  - unfold bind at 1. unfold fs_writeFile at 1.
    destruct (ext_writeFile env w (file x) (purged_css x)) as [e|].
    + exists 1. simpl. by destruct res.
    + match goal with |- context [for_of res _ ?w1] => destruct (IH w1) as [n Hn] end.
      exists (S n). rewrite Hn. simpl. by rewrite <- app_assoc.
Qed.

(** The events of the callback once the metafile is there and fast-glob
    has answered: the glob call, the purge call, then writes. *)
Lemma onEnd_trace (o : UserDefinedOptions) (args : BuildResult) (m : Metafile)
    (w : World) (paths : list string) :
  result_metafile args = Some m ->
  ext_glob env w content_patterns content_glob_options = inr paths ->
  exists writes,
    emitted (purgecssPlugin_onEnd env o args) w =
    [ EvGlob content_patterns content_glob_options;
      EvPurge {| content := paths;
                 css := List.filter (fun k => JS.endsWith k ".css")
                          (map fst (outputs m));
                 purge_safelist := safelist o |} ]
    ++ write_events writes.
Proof.
  intros Hm Hglob.
  assert (Hrun : exists writes,
    trace (purgecssPlugin_onEnd env o args w).1 =
    trace w ++
    [ EvGlob content_patterns content_glob_options;
      EvPurge {| content := paths;
                 css := List.filter (fun k => JS.endsWith k ".css")
                          (map fst (outputs m));
                 purge_safelist := safelist o |} ]
    ++ write_events writes).
  { unfold purgecssPlugin_onEnd, metafile_output_keys. rewrite Hm.
    unfold bind, ret, glob, purgeCSS_purge. rewrite Hglob.
    match goal with |- context [ext_purge env ?w1 ?req] =>
      destruct (ext_purge env w1 req) as [e|res] end.
    - exists []. simpl. by rewrite <- app_assoc.
    - match goal with |- context [for_of res ?body ?w1] =>
        destruct (for_of_writeFile_trace res w1) as [n Hn] end.
      exists (take n res). rewrite Hn. simpl. by rewrite <- !app_assoc. }
  destruct Hrun as [writes Hrun]. exists writes. by apply emitted_app.
Qed.

(** A callback that completes went through all its steps. *)
Lemma onEnd_ok (o : UserDefinedOptions) (args : BuildResult) (w w' : World) :
  purgecssPlugin_onEnd env o args w = (w', inr tt) ->
  exists m paths res,
    result_metafile args = Some m /\
    ext_glob env w content_patterns content_glob_options = inr paths /\
    ext_purge env (record (EvGlob content_patterns content_glob_options) w)
      {| content := paths;
         css := List.filter (fun k => JS.endsWith k ".css") (map fst (outputs m));
         purge_safelist := safelist o |} = inr res /\
    files w' = write_all res (files w) /\
    trace w' =
      trace w ++
      [ EvGlob content_patterns content_glob_options;
        EvPurge {| content := paths;
                   css := List.filter (fun k => JS.endsWith k ".css")
                            (map fst (outputs m));
                   purge_safelist := safelist o |} ]
      ++ write_events res.
Proof.
  unfold purgecssPlugin_onEnd, metafile_output_keys.
  destruct (result_metafile args) as [m|]; [|discriminate].
  unfold bind, ret, glob, purgeCSS_purge.
  destruct (ext_glob env w content_patterns content_glob_options) as [e|paths];
    [discriminate|].
  match goal with |- context [ext_purge env ?w1 ?req] =>
    destruct (ext_purge env w1 req) as [e|res] eqn:Hpurge end; [discriminate|].
  intros H. apply for_of_writeFile_ok in H as [Hfs Htr].
  exists m, paths, res. repeat split; try done.
  rewrite Htr. simpl. by rewrite <- !app_assoc.
Qed.

End Plugin.

Lemma purge_calls_writes (res : list ResultPurge) :
  purge_calls (write_events res) = [].
Proof. induction res as [|r res IH]; [done|]. exact IH. Qed.

Lemma glob_calls_writes (res : list ResultPurge) :
  glob_calls (write_events res) = [].
Proof. induction res as [|r res IH]; [done|]. exact IH. Qed.

(** C4 (as amended): once the metafile is there, the onEnd callback gives
    the fixed patterns (with the fixed ignore list and absolute paths) to
    fast-glob, and forwards to PurgeCSS, in one call, the list of paths
    fast-glob returned as content, the output keys ending with '.css' as
    css, and the safelist of the plugin options. *)
Theorem onEnd_forwards_css_and_globbed_content (env : Env)
    (o : UserDefinedOptions) (args : BuildResult) (m : Metafile) (w : World)
    (paths : list string) :
  result_metafile args = Some m ->
  ext_glob env w content_patterns content_glob_options = inr paths ->
  glob_calls (emitted (purgecssPlugin_onEnd env o args) w)
    = [(content_patterns, content_glob_options)] /\
  purge_calls (emitted (purgecssPlugin_onEnd env o args) w)
    = [ {| content := paths;
           css := List.filter (fun k => JS.endsWith k ".css") (map fst (outputs m));
           purge_safelist := safelist o |} ].
Proof.
  intros Hm Hglob.
  destruct (onEnd_trace env o args m w paths Hm Hglob) as [writes ->].
  split.
  - unfold glob_calls. rewrite omap_app.
    fold (glob_calls (write_events writes)). by rewrite glob_calls_writes.
  - unfold purge_calls. rewrite omap_app.
    fold (purge_calls (write_events writes)). by rewrite purge_calls_writes.
Qed.

Lemma onEnd_forwards_css_and_globbed_content_witness :
  purge_calls
    (emitted (purgecssPlugin_onEnd (env_with ["--styles"] build_clean)
                purgecss_user_options clean_result) empty_world)
  = [ {| content := [ "/opt/netbox/netbox/templates/base.html";
                      "/opt/netbox/netbox/netbox/views.py" ];
         css := [ "dist/netbox-light.css"; "dist/netbox-dark.css" ];
         purge_safelist := Some {| greedy := ["^ss-"; "^dropdown-"] |} |} ].
Proof.
  apply (onEnd_forwards_css_and_globbed_content
           (env_with ["--styles"] build_clean) purgecss_user_options
           clean_result clean_metafile empty_world
           [ "/opt/netbox/netbox/templates/base.html";
             "/opt/netbox/netbox/netbox/views.py" ]);
    reflexivity.
Defined.

(** C4 as stated fails: the content PurgeCSS receives is what fast-glob
    found on this invocation, not the list of patterns. *)
Lemma purge_content_is_not_the_patterns :
  ~ (purge_calls
       (emitted (purgecssPlugin_onEnd (env_with ["--styles"] build_clean)
                   purgecss_user_options clean_result) empty_world)
     = [ {| content := content_patterns;
            css := List.filter (fun k => JS.endsWith k ".css")
                     (map fst (outputs clean_metafile));
            purge_safelist := safelist purgecss_user_options |} ]).
Proof.
  destruct (onEnd_trace (env_with ["--styles"] build_clean) purgecss_user_options
              clean_result clean_metafile empty_world _ eq_refl eq_refl)
    as [writes ->].
  unfold purge_calls. rewrite omap_app.
  fold (purge_calls (write_events writes)). rewrite purge_calls_writes.
  intros H. discriminate H.
Qed.

(** C5: when the onEnd callback completes, the file system is the one it
    started with after the writes of the result list in order, and these
    are the only writes it made: every file named in the list holds
    returned content for that file (the content of its entry when the list
    names each file once), and every other file is unchanged. *)
Theorem onEnd_overwrites_result_files (env : Env) (o : UserDefinedOptions)
    (args : BuildResult) (w w' : World) :
  purgecssPlugin_onEnd env o args w = (w', inr tt) ->
  exists m paths res,
    result_metafile args = Some m /\
    ext_glob env w content_patterns content_glob_options = inr paths /\
    ext_purge env (record (EvGlob content_patterns content_glob_options) w)
      {| content := paths;
         css := List.filter (fun k => JS.endsWith k ".css") (map fst (outputs m));
         purge_safelist := safelist o |} = inr res /\
    files w' = write_all res (files w) /\
    trace w' =
      trace w ++
      [ EvGlob content_patterns content_glob_options;
        EvPurge {| content := paths;
                   css := List.filter (fun k => JS.endsWith k ".css")
                            (map fst (outputs m));
                   purge_safelist := safelist o |} ]
      ++ write_events res /\
    (forall r, r ∈ res ->
       exists r', r' ∈ res /\ file r' = file r /\
                  files w' !! file r = Some (purged_css r')) /\
    (NoDup (map file res) ->
       forall r, r ∈ res -> files w' !! file r = Some (purged_css r)) /\
    (forall f, f ∉ map file res -> files w' !! f = files w !! f).
Proof.
  intros H.
  destruct (onEnd_ok env o args w w' H)
    as (m & paths & res & Hm & Hg & Hp & Hfs & Htr).
  exists m, paths, res.
  split; [exact Hm|]. split; [exact Hg|]. split; [exact Hp|]. split; [exact Hfs|].
  split; [exact Htr|].
  rewrite Hfs. split; [|split].
  - intros r Hr. by apply write_all_in.
  - intros Hnd r Hr. by apply write_all_nodup.
  - intros f Hf. by apply write_all_notin.
Qed.

Lemma onEnd_overwrites_result_files_witness :
  files purged_world !! "dist/netbox-light.css" = Some "a{color:red}" /\
  files purged_world !! "dist/netbox-dark.css" = Some "a{color:red}" /\
  files purged_world !! "dist/a.woff" = files empty_world !! "dist/a.woff".
Proof.
  destruct (onEnd_overwrites_result_files (env_with ["--styles"] build_clean)
              purgecss_user_options clean_result empty_world purged_world eq_refl)
    as (m & paths & res & Hm & Hg & Hp & _ & _ & _ & Hnd & Hout).
  injection Hm as <-. injection Hg as <-. injection Hp as <-.
  assert (Hnodup : NoDup ["dist/netbox-light.css"; "dist/netbox-dark.css"])
    by (apply (bool_decide_unpack _); reflexivity).
  split; [|split].
  - apply (Hnd Hnodup {| file := "dist/netbox-light.css"; purged_css := "a{color:red}" |}).
    apply list_elem_of_here.
  - apply (Hnd Hnodup {| file := "dist/netbox-dark.css"; purged_css := "a{color:red}" |}).
    apply list_elem_of_further, list_elem_of_here.
  - apply Hout. apply (bool_decide_unpack _). reflexivity.
Defined.

(** ** Command-line flags and plugin set-up *)

Lemma includes_app (x : string) (l1 l2 : list string) :
  JS.includes x (l1 ++ l2) = JS.includes x l1 || JS.includes x l2.
Proof. apply existsb_app. Qed.

Lemma includes_without (x y : string) (l1 l2 : list string) :
  String.eqb x y = false ->
  JS.includes x (l1 ++ y :: l2) = JS.includes x (l1 ++ l2).
Proof.
  intros Hxy. rewrite !includes_app.
  change (JS.includes x (y :: l2)) with (String.eqb x y || JS.includes x l2).
  by rewrite Hxy.
Qed.

(** C6: bundleStyles sets the cache option of the Sass plugin to false
    exactly when the argument list contains '--no-cache' and leaves it
    unset otherwise; these are the options of the Sass plugin in the style
    build call; no other option of that call depends on the command line,
    the script phase and the PurgeCSS callback do not depend on it, and
    the flag does not change which phases run. *)
Theorem no_cache_flag_disables_sass_cache (env : Env) :
  pluginOptions env =
    {| outputStyle := "compressed";
       cache := if JS.includes "--no-cache" (ARGS env) then Some false else None |} /\
  plugins (styles_build_options env)
    = [sassPlugin (pluginOptions env); purgecss purgecss_user_options] /\
  (forall w, head (emitted (bundleStyles env) w)
             = Some (EvBuild (styles_build_options env))) /\
  (forall a s, set_sass_options s (styles_build_options (with_argv a env))
               = set_sass_options s (styles_build_options env)) /\
  (forall a w, bundleScripts (with_argv a env) w = bundleScripts env w) /\
  (forall a o args w, purgecssPlugin_onEnd (with_argv a env) o args w
                      = purgecssPlugin_onEnd env o args w) /\
  (forall a1 a2 w,
     phases_run (with_argv (node_argv (a1 ++ "--no-cache" :: a2)) env) w
     = phases_run (with_argv (node_argv (a1 ++ a2)) env) w).
Proof.
  split.
  { unfold pluginOptions. by destruct (JS.includes "--no-cache" (ARGS env)). }
  split; [reflexivity|].
  split; [intros w; by rewrite bundleStyles_emitted|].
  split; [reflexivity|].
  split; [reflexivity|].
  split; [reflexivity|].
  intros a1 a2 w. rewrite !phases_run_eq.
  change (ARGS (with_argv (node_argv (a1 ++ "--no-cache" :: a2)) env))
    with (a1 ++ "--no-cache" :: a2).
  change (ARGS (with_argv (node_argv (a1 ++ a2)) env)) with (a1 ++ a2).
  by rewrite !includes_without.
Qed.

(** C9: the setup function of the PurgeCSS plugin throws the error
    '`metafile` must be set to true in esbuild configuration' whenever the
    initial options have no truthy metafile; with the options of
    bundleStyles, whose metafile is true, it registers the callback
    instead, and no plugin of that build throws at set-up. *)
Theorem purgecss_setup_requires_metafile (env : Env) (o : UserDefinedOptions)
    (initialOptions : BuildOptions) :
  JS.truthy (metafile initialOptions) = false ->
  purgecssPlugin_setup env o initialOptions
    = inl (Error "`metafile` must be set to true in esbuild configuration") /\
  metafile (styles_build_options env) = Some true /\
  purgecssPlugin_setup env o (styles_build_options env)
    = inr (purgecssPlugin_onEnd env o) /\
  Forall (fun p => forall e,
            plugin_setup env p (styles_build_options env) <> Some (inl e))
         (plugins (styles_build_options env)).
Proof.
  intros Hfalsy.
  split; [unfold purgecssPlugin_setup; by rewrite Hfalsy|].
  split; [reflexivity|]. split; [reflexivity|].
  repeat constructor; intros e H; discriminate H.
Qed.

Lemma purgecss_setup_requires_metafile_witness :
  purgecssPlugin_setup (env_with [] build_clean) purgecss_user_options
    netbox_build_options
  = inl (Error "`metafile` must be set to true in esbuild configuration").
Proof.
  apply (purgecss_setup_requires_metafile (env_with [] build_clean)
           purgecss_user_options netbox_build_options).
  reflexivity.
Defined.

(** ** Strings: suffixes and path components *)

Lemma string_length_append (a b : string) :
  String.length (a +:+ b) = String.length a + String.length b.
Proof. induction a as [|c a IH]; simpl; [done | by rewrite IH]. Qed.

Lemma substring_whole (s : string) : substring 0 (String.length s) s = s.
Proof. induction s as [|c s IH]; simpl; [done | by rewrite IH]. Qed.

Lemma substring_after (p s : string) (m : nat) :
  substring (String.length p) m (p +:+ s) = substring 0 m s.
Proof. induction p as [|c p IH]; simpl; [done | exact IH]. Qed.

Lemma substring_cut (s : string) (k : nat) :
  k <= String.length s ->
  s = substring 0 k s +:+ substring k (String.length s - k) s.
Proof.
  revert k. induction s as [|c s IH]; intros k Hk; simpl in *.
  - assert (k = 0) as -> by lia. reflexivity.
  - destruct k as [|k]; simpl.
    + by rewrite substring_whole.
    + change (String c s =
              String c (substring 0 k s +:+ substring k (String.length s - k) s)).
      f_equal. apply IH. lia.
Qed.

(** [endsWith] holds exactly of the strings that are some prefix followed
    by the suffix. *)
Lemma endsWith_iff (s suffix : string) :
  JS.endsWith s suffix = true <-> exists p, s = p +:+ suffix.
Proof.
  unfold JS.endsWith. split.
  - intros H. apply andb_true_iff in H as [Hle Heq].
    apply Nat.leb_le in Hle. apply String.eqb_eq in Heq.
    exists (substring 0 (String.length s - String.length suffix) s).
    pose proof (substring_cut s (String.length s - String.length suffix)
                  ltac:(lia)) as Hcut.
    replace (String.length s - (String.length s - String.length suffix))
      with (String.length suffix) in Hcut by lia.
    rewrite Heq in Hcut. exact Hcut.
  - intros [p ->]. rewrite string_length_append.
    apply andb_true_iff. split; [apply Nat.leb_le; lia|].
    replace (String.length p + String.length suffix - String.length suffix)
      with (String.length p) by lia.
    rewrite substring_after, substring_whole. apply String.eqb_refl.
Qed.

Lemma split_no_sep (sep : ascii) (s : string) :
  has_char sep s = false -> JS.split sep s = [s].
Proof.
  induction s as [|c s IH]; simpl; [done|].
  intros H. apply orb_false_iff in H as [Hc Hs].
  rewrite Hc. by rewrite (IH Hs).
Qed.

Lemma split_at_first_sep (sep : ascii) (a b : string) :
  has_char sep a = false ->
  JS.split sep (a +:+ String sep b) = a :: JS.split sep b.
Proof.
  induction a as [|c a IH]; simpl.
  - intros _. by rewrite Ascii.eqb_refl.
  - intros H. apply orb_false_iff in H as [Hc Ha].
    rewrite Hc. by rewrite (IH Ha).
Qed.

(** ** What a completion line names *)

Lemma second_component (d rest : string) :
  has_char "/" d = false ->
  JS.interpolate_nth 1 (JS.split "/" (d +:+ String "/" rest)) =
  match JS.split "/" rest with
  | c :: _ => c
  | [] => "undefined"
  end.
Proof.
  intros Hd. rewrite (split_at_first_sep _ _ _ Hd).
  unfold JS.interpolate_nth. simpl. by destruct (JS.split "/" rest).
Qed.

(** X1: the completion line of an entry names the component of the source
    path that follows its first '/', up to the next '/' or the end: the
    file for a path of two components, a directory for a deeper one. *)
Theorem completion_line_names_second_component (ext targetName d c rest : string) :
  has_char "/" d = false ->
  has_char "/" c = false ->
  bundled_line ext (targetName, d +:+ String "/" c) =
    "✅ Bundled source file '" +:+ c +:+ "' to '" +:+ targetName +:+ "." +:+ ext +:+ "'" /\
  bundled_line ext (targetName, d +:+ String "/" (c +:+ String "/" rest)) =
    "✅ Bundled source file '" +:+ c +:+ "' to '" +:+ targetName +:+ "." +:+ ext +:+ "'".
Proof.
  intros Hd Hc. unfold bundled_line. split.
  - rewrite (second_component _ _ Hd), (split_no_sep _ _ Hc). reflexivity.
  - rewrite (second_component _ _ Hd), (split_at_first_sep _ _ _ Hc). reflexivity.
Qed.

Lemma completion_line_names_second_component_witness :
  bundled_line "js" ("lldp", "src/device") =
    "✅ Bundled source file 'device' to 'lldp.js'" /\
  bundled_line "js" ("lldp", "src/device/lldp.ts") =
    "✅ Bundled source file 'device' to 'lldp.js'".
Proof.
  apply (completion_line_names_second_component "js" "lldp" "src" "device" "lldp.ts");
    reflexivity.
Defined.

(** X2: for a source path without any '/', the completion line names
    'undefined'. *)
Theorem completion_line_of_flat_path (ext targetName sourceName : string) :
  has_char "/" sourceName = false ->
  bundled_line ext (targetName, sourceName) =
    "✅ Bundled source file 'undefined' to '" +:+ targetName +:+ "." +:+ ext +:+ "'".
Proof.
  intros H. unfold bundled_line. by rewrite (split_no_sep _ _ H).
Qed.

Lemma completion_line_of_flat_path_witness :
  bundled_line "css" ("main", "main.scss") =
    "✅ Bundled source file 'undefined' to 'main.css'".
Proof.
  apply (completion_line_of_flat_path "css" "main" "main.scss"). reflexivity.
Defined.

(** ** The build calls of a run *)

Lemma build_calls_logs (lines : list string) : build_calls (map EvLog lines) = [].
Proof. induction lines as [|l lines IH]; [done | exact IH]. Qed.

Lemma build_calls_phase_events (o : BuildOptions) reply (lines : list string) :
  build_calls (phase_events o reply lines) = [o].
Proof.
  unfold phase_events, build_calls. simpl. f_equal.
  destruct reply as [e|r]; [done|].
  destruct (Nat.eqb _ _); [apply build_calls_logs | done].
Qed.

Lemma build_calls_app (l1 l2 : list Event) :
  build_calls (l1 ++ l2) = build_calls l1 ++ build_calls l2.
Proof. apply omap_app. Qed.

Lemma bundleStyles_build_calls (env : Env) (w : World) :
  build_calls (emitted (bundleStyles env) w) = [styles_build_options env].
Proof. rewrite bundleStyles_emitted. apply build_calls_phase_events. Qed.

Lemma bundleScripts_build_calls (env : Env) (w : World) :
  build_calls (emitted (bundleScripts env) w)
  = [netbox_build_options; graphiql_build_options].
Proof.
  rewrite bundleScripts_emitted, build_calls_app.
  rewrite bundleNetBox_emitted, bundleGraphIQL_emitted.
  by rewrite !build_calls_phase_events.
Qed.

Lemma bundleAll_build_calls (env : Env) (w : World) :
  build_calls (emitted (bundleAll env) w) =
  if JS.includes "--styles" (ARGS env) then [styles_build_options env]
  else if JS.includes "--scripts" (ARGS env)
       then [netbox_build_options; graphiql_build_options]
       else [styles_build_options env; netbox_build_options; graphiql_build_options].
Proof.
  destruct (JS.includes "--styles" (ARGS env)) eqn:Hst;
    [| destruct (JS.includes "--scripts" (ARGS env)) eqn:Hsc ].
  - unfold bundleAll. rewrite Hst. apply bundleStyles_build_calls.
  - unfold bundleAll. rewrite Hst, Hsc. apply bundleScripts_build_calls.
  - rewrite (emitted_app _ _ _ (bundleAll_both_trace env w Hst Hsc)).
    rewrite build_calls_app.
    by rewrite bundleStyles_build_calls, bundleScripts_build_calls.
Qed.

Lemma bundleAll_build_in (env : Env) (w : World) (o : BuildOptions) :
  o ∈ build_calls (emitted (bundleAll env) w) ->
  o = styles_build_options env \/ o = netbox_build_options
  \/ o = graphiql_build_options.
Proof.
  rewrite bundleAll_build_calls.
  destruct (JS.includes "--styles" (ARGS env));
    [| destruct (JS.includes "--scripts" (ARGS env)) ];
    intros H; repeat (apply elem_of_cons in H as [->|H]); auto;
    by apply elem_of_nil in H.
Qed.

(** X3: bundleScripts always makes exactly two build calls, the NetBox
    build and then the GraphiQL build, whatever the first one answers
    (resolve, resolve with errors, or throw), and returns normally. *)
Theorem bundleScripts_builds_both (env : Env) (w : World) :
  build_calls (emitted (bundleScripts env) w)
    = [netbox_build_options; graphiql_build_options] /\
  (bundleScripts env w).2 = inr tt.
Proof.
  split; [apply bundleScripts_build_calls | apply bundleScripts_returns].
Qed.

(** X4: the build calls of bundleAll, in order, are the style build alone
    with '--styles'; the NetBox and GraphiQL builds with '--scripts' and
    no '--styles'; and the style, NetBox and GraphiQL builds otherwise: at
    most three calls, none of them repeated. *)
Theorem bundleAll_builds_in_order (env : Env) (w : World) :
  build_calls (emitted (bundleAll env) w) =
    (if JS.includes "--styles" (ARGS env) then [styles_build_options env]
     else if JS.includes "--scripts" (ARGS env)
          then [netbox_build_options; graphiql_build_options]
          else [styles_build_options env; netbox_build_options;
                graphiql_build_options]) /\
  length (build_calls (emitted (bundleAll env) w)) <= 3 /\
  NoDup (map entryPoints (build_calls (emitted (bundleAll env) w))).
Proof.
  rewrite bundleAll_build_calls.
  split; [reflexivity|].
  destruct (JS.includes "--styles" (ARGS env));
    [| destruct (JS.includes "--scripts" (ARGS env)) ];
    (split; [simpl; lia|]); simpl;
    apply (bool_decide_unpack _); reflexivity.
Qed.

(** X5: every build call of a run of bundleAll carries the common
    options: output directory './dist', bundling and minifying on, sources
    content off, log level 'error'. *)
Theorem every_build_has_common_options (env : Env) (w : World) (o : BuildOptions) :
  o ∈ build_calls (emitted (bundleAll env) w) ->
  outdir o = "./dist" /\ bundle o = true /\ minify o = true /\
  sourcesContent o = false /\ logLevel o = "error".
Proof.
  intros H. by destruct (bundleAll_build_in env w o H) as [->|[->| ->]].
Qed.

Lemma every_build_has_common_options_witness :
  outdir graphiql_build_options = "./dist" /\
  bundle graphiql_build_options = true /\
  minify graphiql_build_options = true /\
  sourcesContent graphiql_build_options = false /\
  logLevel graphiql_build_options = "error".
Proof.
  apply (every_build_has_common_options (env_with ["--scripts"] build_clean)
           empty_world graphiql_build_options).
  rewrite bundleAll_build_calls.
  apply list_elem_of_further, list_elem_of_here.
Defined.



(** ** What reaches the console *)

(** X7: a job calls console.error only with the error its build call
    threw: nothing is printed as an error for a build that resolved, with
    or without errors in its result. *)
Theorem error_printed_only_for_thrown_build (env : Env) (p : Phase) (w : World)
    (e : Exn) :
  EvError e ∈ emitted (phase_run env p) w ->
  (ext_build env w (phase_request env p)).2 = inl e.
Proof.
  rewrite phase_emitted. unfold phase_events.
  destruct (ext_build env w (phase_request env p)).2 as [e0|r].
  - intros H. repeat (apply elem_of_cons in H as [H|H]); try discriminate H.
    + by injection H as ->.
    + by apply elem_of_nil in H.
  - intros H. apply elem_of_cons in H as [H|H]; [discriminate H|].
    destruct (Nat.eqb _ _); [|by apply elem_of_nil in H].
    apply list_elem_of_fmap in H as (l & Hl & _). discriminate Hl.
Qed.

Lemma error_printed_only_for_thrown_build_witness :
  (ext_build (env_with [] build_rejects) empty_world
     (phase_request (env_with [] build_rejects) GraphIQL)).2
  = inl (Error "Build failed with 1 error").
Proof.
  apply (error_printed_only_for_thrown_build (env_with [] build_rejects)
           GraphIQL empty_world (Error "Build failed with 1 error")).
  rewrite phase_emitted. apply list_elem_of_further, list_elem_of_here.
Defined.

(** X8: a job prints a line with console.log only after its build call
    resolved with an empty errors array, and the line is one of the
    completion lines of that job. *)
Theorem line_printed_only_for_clean_build (env : Env) (p : Phase) (w : World)
    (line : string) :
  EvLog line ∈ emitted (phase_run env p) w ->
  exists r, (ext_build env w (phase_request env p)).2 = inr r /\
            errors r = [] /\ line ∈ phase_lines p.
Proof.
  rewrite phase_emitted. unfold phase_events.
  destruct (ext_build env w (phase_request env p)).2 as [e0|r].
  - intros H. repeat (apply elem_of_cons in H as [H|H]); try discriminate H.
    by apply elem_of_nil in H.
  - intros H. apply elem_of_cons in H as [H|H]; [discriminate H|].
    exists r. split; [reflexivity|].
    destruct (errors r) as [|x xs]; simpl in H; [|by apply elem_of_nil in H].
    split; [reflexivity|].
    apply list_elem_of_fmap in H as (l & Hl & Hin). by injection Hl as ->.
Qed.

Lemma line_printed_only_for_clean_build_witness :
  exists r, (ext_build (env_with [] build_clean) empty_world
               (phase_request (env_with [] build_clean) GraphIQL)).2 = inr r /\
            errors r = [] /\ graphiql_line ∈ phase_lines GraphIQL.
Proof.
  apply (line_printed_only_for_clean_build (env_with [] build_clean)
           GraphIQL empty_world graphiql_line).
  rewrite phase_emitted. apply list_elem_of_further, list_elem_of_here.
Defined.

(** ** How the command line is read *)

Lemma bundleStyles_by_request (env env' : Env) (w : World) :
  ext_build env = ext_build env' ->
  styles_build_options env = styles_build_options env' ->
  bundleStyles env w = bundleStyles env' w.
Proof.
  intros Hb Hr.
  etransitivity; [exact (phase_run_eq env Styles w)|].
  symmetry. etransitivity; [exact (phase_run_eq env' Styles w)|].
  unfold phase_request. by rewrite Hb, Hr.
Qed.

(** X9: bundleAll reads the command line only through the presence of
    '--styles', '--scripts' and '--no-cache' after the first two entries
    of argv: two command lines that agree on these three tests give the
    same run, whatever the order, the repetitions, the other arguments
    and the first two entries. *)
Theorem flags_are_read_by_presence (env : Env) (av av' : list string) (w : World) :
  JS.includes "--styles" (drop 2 av) = JS.includes "--styles" (drop 2 av') ->
  JS.includes "--scripts" (drop 2 av) = JS.includes "--scripts" (drop 2 av') ->
  JS.includes "--no-cache" (drop 2 av) = JS.includes "--no-cache" (drop 2 av') ->
  bundleAll (with_argv av env) w = bundleAll (with_argv av' env) w.
Proof.
  intros Hst Hsc Hnc.
  assert (Hstyles : forall w0,
            bundleStyles (with_argv av env) w0 = bundleStyles (with_argv av' env) w0).
  { intros w0. apply bundleStyles_by_request; [reflexivity|].
    unfold styles_build_options, pluginOptions.
    change (ARGS (with_argv av env)) with (drop 2 av).
    change (ARGS (with_argv av' env)) with (drop 2 av').
    by rewrite Hnc. }
  unfold bundleAll.
  change (ARGS (with_argv av env)) with (drop 2 av).
  change (ARGS (with_argv av' env)) with (drop 2 av').
  rewrite <- Hst, <- Hsc.
  destruct (JS.includes "--styles" (drop 2 av)); [apply Hstyles|].
  destruct (JS.includes "--scripts" (drop 2 av)); [reflexivity|].
  unfold bind. rewrite Hstyles. reflexivity.
Qed.

Lemma flags_are_read_by_presence_witness :
  bundleAll (with_argv ["--styles"; "--styles"; "--scripts"; "--watch"; "--scripts"]
               (env_with [] build_clean)) empty_world
  = bundleAll (with_argv (node_argv ["--scripts"]) (env_with [] build_clean))
      empty_world.
Proof.
  apply (flags_are_read_by_presence (env_with [] build_clean)
           ["--styles"; "--styles"; "--scripts"; "--watch"; "--scripts"]
           (node_argv ["--scripts"]) empty_world);
    reflexivity.
Defined.

(** ** The PurgeCSS callback when something fails *)

Lemma write_all_app (l1 l2 : list ResultPurge) (fs : gmap string string) :
  write_all (l1 ++ l2) fs = write_all l2 (write_all l1 fs).
Proof. apply foldl_app. Qed.

Lemma filter_sublist {A} (f : A -> bool) (l : list A) :
  sublist (List.filter f l) l.
Proof.
  induction l as [|x l IH]; simpl; [constructor|].
  destruct (f x); by constructor.
Qed.

Lemma for_of_writeFile_fail (env : Env) (res : list ResultPurge) (w w' : World)
    (e : Exn) :
  for_of res (fun r => fs_writeFile env (file r) (purged_css r)) w = (w', inl e) ->
  exists k r,
    res !! k = Some r /\
    files w' = write_all (take k res) (files w) /\
    trace w' = trace w ++ write_events (take (S k) res) /\
    ext_writeFile env
      {| files := write_all (take k res) (files w);
         trace := trace w ++ write_events (take k res) |}
      (file r) (purged_css r) = Some e.
Proof.
  revert w. induction res as [|x res IH]; intros w H; simpl in H.
  - discriminate H.
  - unfold bind in H. unfold fs_writeFile at 1 in H.
    destruct (ext_writeFile env w (file x) (purged_css x)) as [e0|] eqn:Hw.
    + injection H as <- <-. exists 0, x. simpl.
      split; [done|]. split; [done|]. split; [by destruct res|].
      rewrite app_nil_r. by destruct w.
    + apply IH in H as (k & r & Hk & Hfs & Htr & Hfail).
      exists (S k), r. simpl in *.
      split; [exact Hk|]. split; [exact Hfs|].
      split; [by rewrite Htr, <- app_assoc|].
      by rewrite <- app_assoc in Hfail.
Qed.

Lemma for_of_writeFile_files (env : Env) (res : list ResultPurge) (w : World) :
  exists k,
    files (for_of res (fun r => fs_writeFile env (file r) (purged_css r)) w).1
    = write_all (take k res) (files w).
Proof.
  destruct (for_of res (fun r => fs_writeFile env (file r) (purged_css r)) w)
    as [w' [e|[]]] eqn:H.
  - apply for_of_writeFile_fail in H as (k & r & _ & Hfs & _). by exists k.
  - apply for_of_writeFile_ok in H as [Hfs _].
    exists (length res). by rewrite firstn_all.
Qed.

(** X10: when the build result has no metafile, the callback rejects with
    a TypeError before any call to fast-glob, PurgeCSS or the file system:
    the world is left as it was. *)
Theorem onEnd_without_metafile (env : Env) (o : UserDefinedOptions)
    (args : BuildResult) (w : World) :
  result_metafile args = None ->
  purgecssPlugin_onEnd env o args w =
    (w, inl (TypeError "Cannot read properties of undefined (reading 'outputs')")) /\
  emitted (purgecssPlugin_onEnd env o args) w = [].
Proof.
  intros Hm.
  assert (Hrun : purgecssPlugin_onEnd env o args w =
            (w, inl (TypeError "Cannot read properties of undefined (reading 'outputs')"))).
  { unfold purgecssPlugin_onEnd, metafile_output_keys. by rewrite Hm. }
  split; [exact Hrun|]. apply emitted_app. by rewrite Hrun, app_nil_r.
Qed.

Lemma onEnd_without_metafile_witness :
  emitted (purgecssPlugin_onEnd (env_with ["--styles"] build_clean)
             purgecss_user_options bare_result) empty_world = [].
Proof.
  apply (onEnd_without_metafile (env_with ["--styles"] build_clean)
           purgecss_user_options bare_result empty_world).
  reflexivity.
Defined.

(** X11: when fast-glob rejects, the callback rejects with the same error;
    the glob call is its only event: PurgeCSS is not called and no file is
    written. *)
Theorem onEnd_glob_rejects (env : Env) (o : UserDefinedOptions)
    (args : BuildResult) (m : Metafile) (w : World) (e : Exn) :
  result_metafile args = Some m ->
  ext_glob env w content_patterns content_glob_options = inl e ->
  (purgecssPlugin_onEnd env o args w).2 = inl e /\
  emitted (purgecssPlugin_onEnd env o args) w
    = [EvGlob content_patterns content_glob_options] /\
  files (purgecssPlugin_onEnd env o args w).1 = files w.
Proof.
  intros Hm Hglob.
  assert (Hrun : purgecssPlugin_onEnd env o args w =
            (record (EvGlob content_patterns content_glob_options) w, inl e)).
  { unfold purgecssPlugin_onEnd, metafile_output_keys. rewrite Hm.
    unfold bind, ret, glob. by rewrite Hglob. }
  split; [by rewrite Hrun|]. split; [|by rewrite Hrun].
  apply emitted_app. by rewrite Hrun.
Qed.

Lemma onEnd_glob_rejects_witness :
  (purgecssPlugin_onEnd (env_plugin glob_rejects purge_each (fun _ _ _ => None))
     purgecss_user_options clean_result empty_world).2
  = inl (Error "EMFILE: too many open files").
Proof.
  apply (onEnd_glob_rejects (env_plugin glob_rejects purge_each (fun _ _ _ => None))
           purgecss_user_options clean_result clean_metafile empty_world
           (Error "EMFILE: too many open files"));
    reflexivity.
Defined.

(** X12: when PurgeCSS rejects, the callback rejects with the same error
    after the glob call and the purge call, and no file is written. *)
Theorem onEnd_purge_rejects (env : Env) (o : UserDefinedOptions)
    (args : BuildResult) (m : Metafile) (w : World) (paths : list string)
    (e : Exn) :
  result_metafile args = Some m ->
  ext_glob env w content_patterns content_glob_options = inr paths ->
  ext_purge env (record (EvGlob content_patterns content_glob_options) w)
    {| content := paths;
       css := List.filter (fun k => JS.endsWith k ".css") (map fst (outputs m));
       purge_safelist := safelist o |} = inl e ->
  (purgecssPlugin_onEnd env o args w).2 = inl e /\
  emitted (purgecssPlugin_onEnd env o args) w
    = [ EvGlob content_patterns content_glob_options;
        EvPurge {| content := paths;
                   css := List.filter (fun k => JS.endsWith k ".css")
                            (map fst (outputs m));
                   purge_safelist := safelist o |} ] /\
  files (purgecssPlugin_onEnd env o args w).1 = files w.
Proof.
  intros Hm Hglob Hpurge.
  assert (Hrun : purgecssPlugin_onEnd env o args w =
            (record (EvPurge {| content := paths;
                                css := List.filter (fun k => JS.endsWith k ".css")
                                         (map fst (outputs m));
                                purge_safelist := safelist o |})
               (record (EvGlob content_patterns content_glob_options) w), inl e)).
  { unfold purgecssPlugin_onEnd, metafile_output_keys. rewrite Hm.
    unfold bind, ret, glob, purgeCSS_purge. rewrite Hglob. by rewrite Hpurge. }
  split; [by rewrite Hrun|]. split; [|by rewrite Hrun].
  apply emitted_app. rewrite Hrun. simpl. by rewrite <- app_assoc.
Qed.

Lemma onEnd_purge_rejects_witness :
  files (purgecssPlugin_onEnd (env_plugin glob_finds purge_rejects (fun _ _ _ => None))
           purgecss_user_options clean_result empty_world).1
  = files empty_world.
Proof.
  apply (onEnd_purge_rejects (env_plugin glob_finds purge_rejects (fun _ _ _ => None))
           purgecss_user_options clean_result clean_metafile empty_world
           [ "/opt/netbox/netbox/templates/base.html";
             "/opt/netbox/netbox/netbox/views.py" ]
           (Error "CssSyntaxError: Unclosed block"));
    reflexivity.
Defined.

(** X13: when a write fails, the loop stops there and the callback rejects
    with the error of that write: the files of the result list before the
    failing entry have been overwritten, in order, and no write was
    attempted after it. *)
Theorem failed_write_stops_the_loop (env : Env) (o : UserDefinedOptions)
    (args : BuildResult) (m : Metafile) (w w' : World) (paths : list string)
    (res : list ResultPurge) (e : Exn) :
  result_metafile args = Some m ->
  ext_glob env w content_patterns content_glob_options = inr paths ->
  ext_purge env (record (EvGlob content_patterns content_glob_options) w)
    {| content := paths;
       css := List.filter (fun k => JS.endsWith k ".css") (map fst (outputs m));
       purge_safelist := safelist o |} = inr res ->
  purgecssPlugin_onEnd env o args w = (w', inl e) ->
  exists k r,
    res !! k = Some r /\
    files w' = write_all (take k res) (files w) /\
    trace w' =
      trace w ++
      [ EvGlob content_patterns content_glob_options;
        EvPurge {| content := paths;
                   css := List.filter (fun k => JS.endsWith k ".css")
                            (map fst (outputs m));
                   purge_safelist := safelist o |} ]
      ++ write_events (take (S k) res) /\
    ext_writeFile env
      {| files := write_all (take k res) (files w);
         trace := trace w ++
                  [ EvGlob content_patterns content_glob_options;
                    EvPurge {| content := paths;
                               css := List.filter (fun k => JS.endsWith k ".css")
                                        (map fst (outputs m));
                               purge_safelist := safelist o |} ]
                  ++ write_events (take k res) |}
      (file r) (purged_css r) = Some e.
Proof.
  intros Hm Hglob Hpurge.
  unfold purgecssPlugin_onEnd, metafile_output_keys. rewrite Hm.
  unfold bind, ret, glob, purgeCSS_purge. rewrite Hglob. rewrite Hpurge.
  intros H. apply for_of_writeFile_fail in H as (k & r & Hk & Hfs & Htr & Hfail).
  exists k, r. simpl in *.
  split; [exact Hk|]. split; [exact Hfs|].
  split; [by rewrite Htr, <- !app_assoc|].
  by rewrite <- !app_assoc in Hfail.
Qed.

Lemma failed_write_stops_the_loop_witness :
  exists k r,
    [ {| file := "dist/netbox-light.css"; purged_css := "a{color:red}" |};
      {| file := "dist/netbox-dark.css"; purged_css := "a{color:red}" |} ] !! k
    = Some r /\
    files (purgecssPlugin_onEnd
             (env_plugin glob_finds purge_each (write_denied "dist/netbox-dark.css"))
             purgecss_user_options clean_result empty_world).1
    = write_all
        (take k [ {| file := "dist/netbox-light.css"; purged_css := "a{color:red}" |};
                  {| file := "dist/netbox-dark.css"; purged_css := "a{color:red}" |} ])
        (files empty_world).
Proof.
  destruct (failed_write_stops_the_loop
              (env_plugin glob_finds purge_each (write_denied "dist/netbox-dark.css"))
              purgecss_user_options clean_result clean_metafile empty_world
              (purgecssPlugin_onEnd
                 (env_plugin glob_finds purge_each (write_denied "dist/netbox-dark.css"))
                 purgecss_user_options clean_result empty_world).1
              [ "/opt/netbox/netbox/templates/base.html";
                "/opt/netbox/netbox/netbox/views.py" ]
              [ {| file := "dist/netbox-light.css"; purged_css := "a{color:red}" |};
                {| file := "dist/netbox-dark.css"; purged_css := "a{color:red}" |} ]
              (Error "EACCES: permission denied")
              eq_refl eq_refl eq_refl eq_refl)
    as (k & r & Hk & Hfs & _).
  exists k, r. split; [exact Hk | exact Hfs].
Defined.

(** X14: whatever the outcome of the callback (completion, or a rejection
    at any step), a path whose content it changed is the file of an entry
    of the list PurgeCSS resolved to; if PurgeCSS was not reached or
    rejected, no file changed. *)
Theorem onEnd_changes_only_result_files (env : Env) (o : UserDefinedOptions)
    (args : BuildResult) (w : World) (f : string) :
  files (purgecssPlugin_onEnd env o args w).1 !! f <> files w !! f ->
  exists m paths res r,
    result_metafile args = Some m /\
    ext_glob env w content_patterns content_glob_options = inr paths /\
    ext_purge env (record (EvGlob content_patterns content_glob_options) w)
      {| content := paths;
         css := List.filter (fun k => JS.endsWith k ".css") (map fst (outputs m));
         purge_safelist := safelist o |} = inr res /\
    r ∈ res /\ file r = f.
Proof.
  unfold purgecssPlugin_onEnd, metafile_output_keys.
  destruct (result_metafile args) as [m|]; [|intros H; by destruct H].
  unfold bind, ret, glob, purgeCSS_purge.
  destruct (ext_glob env w content_patterns content_glob_options) as [e|paths];
    [intros H; by destruct H|].
  match goal with |- context [ext_purge env ?w1 ?req] =>
    destruct (ext_purge env w1 req) as [e|res] eqn:Hpurge end;
    [intros H; by destruct H|].
  match goal with |- context [for_of res ?body ?w1] =>
    destruct (for_of_writeFile_files env res w1) as [k Hk] end.
  rewrite Hk. simpl. intros Hne.
  destruct (decide (f ∈ map file (take k res))) as [Hin|Hnot].
  - apply list_elem_of_fmap in Hin as (r & Hf & Hr).
    exists m, paths, res, r. repeat split; try done.
    by apply (subseteq_take k res).
  - exfalso. apply Hne. by apply write_all_notin.
Qed.

Lemma onEnd_changes_only_result_files_witness :
  exists m paths res r,
    result_metafile clean_result = Some m /\
    ext_glob (env_plugin glob_finds purge_each (write_denied "dist/netbox-dark.css"))
      empty_world content_patterns content_glob_options = inr paths /\
    ext_purge (env_plugin glob_finds purge_each (write_denied "dist/netbox-dark.css"))
      (record (EvGlob content_patterns content_glob_options) empty_world)
      {| content := paths;
         css := List.filter (fun k => JS.endsWith k ".css") (map fst (outputs m));
         purge_safelist := safelist purgecss_user_options |} = inr res /\
    r ∈ res /\ file r = "dist/netbox-light.css".
Proof.
  apply (onEnd_changes_only_result_files
           (env_plugin glob_finds purge_each (write_denied "dist/netbox-dark.css"))
           purgecss_user_options clean_result empty_world "dist/netbox-light.css").
  vm_compute. discriminate.
Defined.

(** X15: when the callback completes and PurgeCSS named a file in several
    entries of its list, the file holds the content of the last of them. *)
Theorem last_entry_for_a_file_wins (env : Env) (o : UserDefinedOptions)
    (args : BuildResult) (m : Metafile) (w w' : World) (paths : list string)
    (pre post : list ResultPurge) (r : ResultPurge) :
  result_metafile args = Some m ->
  ext_glob env w content_patterns content_glob_options = inr paths ->
  ext_purge env (record (EvGlob content_patterns content_glob_options) w)
    {| content := paths;
       css := List.filter (fun k => JS.endsWith k ".css") (map fst (outputs m));
       purge_safelist := safelist o |} = inr (pre ++ r :: post) ->
  file r ∉ map file post ->
  purgecssPlugin_onEnd env o args w = (w', inr tt) ->
  files w' !! file r = Some (purged_css r).
Proof.
  intros Hm Hglob Hpurge Hlast H.
  destruct (onEnd_ok env o args w w' H)
    as (m' & paths' & res & Hm' & Hg' & Hp' & Hfs & _).
  rewrite Hm in Hm'. injection Hm' as <-.
  rewrite Hglob in Hg'. injection Hg' as <-.
  rewrite Hpurge in Hp'. injection Hp' as <-.
  rewrite Hfs, write_all_app. simpl.
  rewrite (write_all_notin _ _ _ Hlast). apply lookup_insert_eq.
Qed.

Lemma last_entry_for_a_file_wins_witness :
  files (purgecssPlugin_onEnd (env_plugin glob_finds purge_twice (fun _ _ _ => None))
           purgecss_user_options clean_result empty_world).1
    !! "dist/netbox-light.css"
  = Some "a{color:blue}".
Proof.
  apply (last_entry_for_a_file_wins
           (env_plugin glob_finds purge_twice (fun _ _ _ => None))
           purgecss_user_options clean_result clean_metafile empty_world
           (purgecssPlugin_onEnd (env_plugin glob_finds purge_twice (fun _ _ _ => None))
              purgecss_user_options clean_result empty_world).1
           [ "/opt/netbox/netbox/templates/base.html";
             "/opt/netbox/netbox/netbox/views.py" ]
           [ {| file := "dist/netbox-light.css"; purged_css := "a{color:red}" |} ]
           []
           {| file := "dist/netbox-light.css"; purged_css := "a{color:blue}" |});
    try reflexivity.
  apply not_elem_of_nil.
Defined.

(** X16: the css list the callback forwards to PurgeCSS holds exactly the
    output keys of the metafile that are some prefix followed by '.css'
    (so a key like 'x.css.map' is left out), in the order of the metafile. *)
Theorem css_list_is_the_css_outputs (env : Env) (o : UserDefinedOptions)
    (args : BuildResult) (m : Metafile) (w : World) (paths : list string)
    (req : PurgeOptions) :
  result_metafile args = Some m ->
  ext_glob env w content_patterns content_glob_options = inr paths ->
  req ∈ purge_calls (emitted (purgecssPlugin_onEnd env o args) w) ->
  (forall k, k ∈ css req <->
             k ∈ map fst (outputs m) /\ exists p, k = p +:+ ".css") /\
  sublist (css req) (map fst (outputs m)).
Proof.
  intros Hm Hglob.
  destruct (onEnd_trace env o args m w paths Hm Hglob) as [writes ->].
  unfold purge_calls. rewrite omap_app.
  fold (purge_calls (write_events writes)). rewrite purge_calls_writes.
  simpl. intros Hreq. apply list_elem_of_singleton in Hreq as ->. simpl.
  split; [|apply filter_sublist].
  intros k. rewrite !list_elem_of_In, filter_In, endsWith_iff. reflexivity.
Qed.

Lemma css_list_is_the_css_outputs_witness :
  sublist [ "dist/netbox-light.css"; "dist/netbox-dark.css" ]
          (map fst (outputs clean_metafile)).
Proof.
  apply (css_list_is_the_css_outputs (env_with ["--styles"] build_clean)
           purgecss_user_options clean_result clean_metafile empty_world
           [ "/opt/netbox/netbox/templates/base.html";
             "/opt/netbox/netbox/netbox/views.py" ]
           {| content := [ "/opt/netbox/netbox/templates/base.html";
                           "/opt/netbox/netbox/netbox/views.py" ];
              css := [ "dist/netbox-light.css"; "dist/netbox-dark.css" ];
              purge_safelist := Some {| greedy := ["^ss-"; "^dropdown-"] |} |});
    try reflexivity.
  apply list_elem_of_here.
Defined.
